(** * decorators.py: a shallow embedding of the tutorial's runnable examples

    The script defines a logging decorator ([log]), a function it wraps
    ([add]), a class with a class-level counter ([MyClass]), a class with a
    factory class method ([Person]) and a class with a validated property
    ([Circle]).  Each of them is embedded below as a function over explicit
    state:

    - Python numbers are [int] (unbounded, [Z]) and [float] (IEEE binary64,
      the kernel's primitive floats), with CPython's mixed arithmetic;
    - an instance is its attribute dictionary ([gmap string value]);
    - a raised exception is an [outcome], and the state reached when it is
      raised is kept (Python does not roll back);
    - the console is a list of printed lines. *)

From Stdlib Require Import ZArith List PrimFloat SpecFloat FloatOps.
From stdpp Require Import gmap strings.

Set Default Proof Using "Type".
Local Open Scope Z_scope.

(** ** Values *)

Inductive number :=
  | Int (z : Z)
  | Float (f : float).

Inductive value :=
  | Num (n : number)
  | Str (s : string)
  | NoneV.

Inductive exn :=
  | ValueError (msg : string)
  | AttributeError (attr : string)
  | TypeError
  | OverflowError.

Inductive outcome (A : Type) :=
  | Return (a : A)
  | Raise (e : exn).
Arguments Return {A} a.
Arguments Raise {A} e.

#[global] Instance outcome_ret : MRet outcome := @Return.
#[global] Instance outcome_bind : MBind outcome := fun A B k m =>
  match m with
  | Return a => k a
  | Raise e => Raise e
  end.
#[global] Instance outcome_fmap : FMap outcome := fun A B g m =>
  match m with
  | Return a => Return (g a)
  | Raise e => Raise e
  end.

(** ** Numbers *)

(** The literal [3.14] of [Circle.area]: the binary64 nearest to 3.14. *)
Definition lit_3_14 : float := 0x1.91eb851eb851fp+1%float.

(** [int] to [float], as CPython converts the [int] operand of a mixed
    operation: round to nearest, ties to even; [OverflowError] when the
    rounded value does not fit ("int too large to convert to float"). *)
Definition int_to_float (z : Z) : outcome float :=
  match binary_normalize prec emax z 0 false with
  | S754_infinity _ => Raise OverflowError
  | sf => Return (SF2Prim sf)
  end.

(** Exact comparison of a float with an int; [None] when the float is NaN. *)
Definition sf_cmp_Z (x : spec_float) (z : Z) : option comparison :=
  match x with
  | S754_nan => None
  | S754_infinity s => Some (if s then Lt else Gt)
  | S754_zero _ => Some (0 ?= z)
  | S754_finite s m e =>
      let n := if s then Z.neg m else Z.pos m in
      Some (if 0 <=? e then n * 2 ^ e ?= z else n ?= z * 2 ^ (- e))
  end.

Definition is_cmp (c : comparison) (o : option comparison) : bool :=
  match o with
  | Some c' => bool_decide (c = c')
  | None => false
  end.

(** [a > b] *)
Definition number_gt (a b : number) : bool :=
  match a, b with
  | Int x, Int y => y <? x
  | Float x, Float y => PrimFloat.ltb y x
  | Float x, Int y => is_cmp Gt (sf_cmp_Z (Prim2SF x) y)
  | Int x, Float y => is_cmp Lt (sf_cmp_Z (Prim2SF y) x)
  end.

(** [a <= b] *)
Definition number_le (a b : number) : bool :=
  match a, b with
  | Int x, Int y => x <=? y
  | Float x, Float y => PrimFloat.leb x y
  | Float x, Int y =>
      is_cmp Lt (sf_cmp_Z (Prim2SF x) y) || is_cmp Eq (sf_cmp_Z (Prim2SF x) y)
  | Int x, Float y =>
      is_cmp Gt (sf_cmp_Z (Prim2SF y) x) || is_cmp Eq (sf_cmp_Z (Prim2SF y) x)
  end.

Definition number_is_nan (a : number) : bool :=
  match a with
  | Int _ => false
  | Float f => PrimFloat.is_nan f
  end.

(** A binary operator that is exact on two ints and a float operation
    otherwise, the int operand converted first. *)
Definition arith (zop : Z -> Z -> Z) (fop : float -> float -> float)
    (a b : number) : outcome number :=
  match a, b with
  | Int x, Int y => Return (Int (zop x y))
  | Float x, Float y => Return (Float (fop x y))
  | Int x, Float y => fx ← int_to_float x; Return (Float (fop fx y))
  | Float x, Int y => fy ← int_to_float y; Return (Float (fop x fy))
  end.

Definition py_add : number -> number -> outcome number := arith Z.add PrimFloat.add.
Definition py_sub : number -> number -> outcome number := arith Z.sub PrimFloat.sub.
Definition py_mul : number -> number -> outcome number := arith Z.mul PrimFloat.mul.

(** ** Stateful computations

    [M S A] runs on a state [S] and either returns or raises; in both cases
    it hands back the state it reached. *)

Definition M (S A : Type) : Type := S -> outcome A * S.

#[global] Instance M_ret {S} : MRet (M S) := fun A a s => (Return a, s).
#[global] Instance M_bind {S} : MBind (M S) := fun A B k m s =>
  match m s with
  | (Return a, s') => k a s'
  | (Raise e, s') => (Raise e, s')
  end.

Definition raise {S A} (e : exn) : M S A := fun s => (Raise e, s).

Definition lift {S A} (r : outcome A) : M S A := fun s => (r, s).

(** ** Objects: attribute dictionaries *)

Abbreviation object := (gmap string value).

Definition getattr (name : string) : M object value := fun self =>
  match self !! name with
  | Some v => (Return v, self)
  | None => (Raise (AttributeError name), self)
  end.

Definition setattr (name : string) (v : value) : M object unit := fun self =>
  (Return tt, <[name := v]> self).

Definition delattr (name : string) : M object unit := fun self =>
  match self !! name with
  | Some _ => (Return tt, delete name self)
  | None => (Raise (AttributeError name), self)
  end.

(** [cls(args)]: [__init__] runs on a new, empty instance, which is the
    result of the call. *)
Definition new (init : M object unit) : outcome object :=
  match init ∅ with
  | (Return _, self) => Return self
  | (Raise e, _) => Raise e
  end.

(** Operands of [**] and of [*] with a [float] on the left: only numbers are
    accepted among the values modelled here. *)
Definition as_number (v : value) : outcome number :=
  match v with
  | Num n => Return n
  | _ => Raise TypeError
  end.

(** [a + b] on values: numbers add, strings concatenate. *)
Definition value_add (a b : value) : outcome value :=
  match a, b with
  | Num x, Num y => Num <$> py_add x y
  | Str x, Str y => Return (Str (x +:+ y))
  | _, _ => Raise TypeError
  end.

(** ** The console *)

(** A printed line is kept as the pieces of its f-string: the literal text
    and the objects formatted into it. *)
Inductive piece :=
  | Lit (s : string)
  | Fmt (v : value)
  | FmtTuple (args : list value)
  | FmtDict (kwargs : list (string * value)).

Abbreviation line := (list piece).

(** The state shared by the whole script: what was printed, and the
    attributes of the class object [MyClass]. *)
Record world := World {
  stdout : list line;
  MyClass_dict : object;
}.

(** The world after one more printed line. *)
Definition printed (l : line) (w : world) : world :=
  {| stdout := stdout w ++ [l]; MyClass_dict := MyClass_dict w |}.

(** CPython (3.11 and later, default setting) refuses to convert to a
    decimal string an int of more than [int_max_str_digits] digits, the sign
    not counted; [str] and [repr] of any other value modelled here always
    succeed. *)
Definition int_max_str_digits : Z := 4300.

Definition int_formattable (z : Z) : bool :=
  Z.abs z <? 10 ^ int_max_str_digits.

Definition value_formattable (v : value) : bool :=
  match v with
  | Num (Int z) => int_formattable z
  | _ => true
  end.

Definition piece_formattable (p : piece) : bool :=
  match p with
  | Lit _ => true
  | Fmt v => value_formattable v
  | FmtTuple args => forallb value_formattable args
  | FmtDict kwargs => forallb (fun kv => value_formattable kv.2) kwargs
  end.

Definition line_formattable (l : line) : bool :=
  forallb piece_formattable l.

Definition digits_error : exn :=
  ValueError "Exceeds the limit (4300 digits) for integer string conversion; use sys.set_int_max_str_digits() to increase the limit".

(** [print(f"...")]: the f-string is built first, which raises when an int
    in it has too many digits; only then is the line written. *)
Definition print (l : line) : M world unit := fun w =>
  if line_formattable l then (Return tt, printed l w)
  else (Raise digits_error, w).

(** Run a computation over the attributes of [MyClass]. *)
Definition on_MyClass {A} (m : M object A) : M world A := fun w =>
  match m (MyClass_dict w) with
  | (r, d) => (r, {| stdout := stdout w; MyClass_dict := d |})
  end.

(** The world after the class statement [class MyClass: count = 0]. *)
Definition initial_world : world :=
  {| stdout := []; MyClass_dict := {["count" := Num (Int 0)]} |}.

(** ** log and add (lines 41-90) *)

(** A Python function: positional arguments, keyword arguments in call
    order, and the world it runs in. *)
Definition pyfunc : Type := list value -> list (string * value) -> M world value.

Definition calling_line (args : list value) (kwargs : list (string * value)) : line :=
  [Lit "Calling the wrapped function with arguments "; FmtTuple args;
   Lit ", "; FmtDict kwargs].

Definition complete_line : line := [Lit "Wrapped function execution complete!"].

Definition log (func : pyfunc) : pyfunc := fun args kwargs =>
  print (calling_line args kwargs);;
  func args kwargs;;
  print complete_line;;
  mret NoneV.

(** Binding of a call's arguments to the parameters [names] of a function
    without defaults: positional arguments fill the first parameters, every
    keyword must name one of the remaining ones, and none may stay unbound;
    anything else is a [TypeError]. *)
Fixpoint bind_keywords (names : list string) (kwargs : list (string * value))
    : outcome (list value) :=
  match names with
  | [] => Return []
  | n :: names' =>
      match list_find (fun kv => kv.1 = n) kwargs with
      | Some (_, (_, v)) => vs ← bind_keywords names' kwargs; Return (v :: vs)
      | None => Raise TypeError
      end
  end.

Definition bind_params (names : list string) (args : list value)
    (kwargs : list (string * value)) : outcome (list value) :=
  if bool_decide (length args ≤ length names)%nat then
    let rest := drop (length args) names in
    if forallb (fun kv => bool_decide (kv.1 ∈ rest)) kwargs then
      vs ← bind_keywords rest kwargs; Return (args ++ vs)
    else Raise TypeError
  else Raise TypeError.

Definition add : pyfunc := fun args kwargs =>
  ps ← lift (bind_params ["num1"; "num2"] args kwargs);
  match ps with
  | [num1; num2] =>
      sum ← lift (value_add num1 num2);
      print [Lit "Sum = "; Fmt sum];;
      mret sum
  | _ => raise TypeError
  end.

(** ** MyClass (lines 194-204) *)

(** [cls.count += 1], with [cls] the class [MyClass]: the attribute is read
    from the class, one is added, and the sum is stored on the class. *)
Definition MyClass_increment_count : M world unit :=
  on_MyClass (count ← getattr "count";
              count' ← lift (value_add count (Num (Int 1)));
              setattr "count" count').

(** [MyClass.count] *)
Definition MyClass_count : M world value := on_MyClass (getattr "count").

(** [obj.count] for an instance [obj] of [MyClass]: the instance's own
    attribute if it has one, the class attribute otherwise. *)
Definition MyClass_instance_count (obj : object) : M world value := fun w =>
  match obj !! "count" with
  | Some v => (Return v, w)
  | None => MyClass_count w
  end.

(** [n] calls of [MyClass.increment_count()] in a row. *)
Fixpoint increment_times (n : nat) : M world unit :=
  match n with
  | O => mret tt
  | S n' => MyClass_increment_count;; increment_times n'
  end.

(** ** Person (lines 210-225) *)

Definition Person_init (name age : value) : M object unit :=
  setattr "name" name;;
  setattr "age" age.

Definition Person (name age : value) : outcome object :=
  new (Person_init name age).

Definition Person_from_birth_year (name : value) (birth_year : number) : M world object :=
  let current_year := Int 2025 in
  age ← lift (py_sub current_year birth_year);
  lift (Person name (Num age)).

(** ** Circle (lines 234-281) *)

Definition Circle_init (radius : value) : M object unit :=
  setattr "_radius" radius.

Definition Circle (radius : value) : outcome object :=
  new (Circle_init radius).

(** The getter of the property [radius]. *)
Definition Circle_radius : M object value :=
  getattr "_radius".

(** The setter of the property [radius]; [value] is annotated [float],
    which an [int] satisfies as well. *)
Definition Circle_radius_set (value : number) : M object unit :=
  if number_gt value (Int 0) then setattr "_radius" (Num value)
  else raise (ValueError "Radius must be positive").

(** The deleter of the property [radius]. *)
Definition Circle_radius_del : M object unit :=
  delattr "_radius".

Section Area.

(** [float.__pow__], which CPython hands to the C library's [pow]; its
    rounding is the platform's, so it is left open here. *)
Variable float_pow : float -> float -> outcome float.

(** [a ** e] for an int literal [e]: exact on an int base and a
    non-negative exponent, the float power of the converted operands
    otherwise. *)
Definition py_pow (a : number) (e : Z) : outcome number :=
  match a with
  | Int z =>
      if 0 <=? e then Return (Int (z ^ e))
      else x ← int_to_float z; y ← int_to_float e; Float <$> float_pow x y
  | Float x => y ← int_to_float e; Float <$> float_pow x y
  end.

(** The read-only property [area]: [3.14 * self.radius ** 2]. *)
Definition Circle_area : M object value :=
  radius ← Circle_radius;
  lift (r ← as_number radius;
        sq ← py_pow r 2;
        Num <$> py_mul (Float lit_3_14) sq).

End Area.

(** The assignments [c.radius = v] for the [v] of [vs], in order; the
    first one that raises ends the run. *)
Fixpoint assign_all (vs : list number) : M object unit :=
  match vs with
  | [] => mret tt
  | v :: vs' => Circle_radius_set v;; assign_all vs'
  end.

(** The stored radius is a number greater than zero. *)
Definition radius_positive (self : object) : bool :=
  match self !! "_radius" with
  | Some (Num n) => number_gt n (Int 0)
  | _ => false
  end.

(** ** example1 and example2 (lines 162-173) *)

(** Binding for a function whose named parameters are followed by [*args]:
    positional arguments fill the named parameters first and the surplus is
    collected; a keyword must name a parameter that no positional argument
    filled, and no named parameter may stay unbound.  The result is the
    values of the named parameters and the collected tuple. *)
Definition bind_params_star (names : list string) (args : list value)
    (kwargs : list (string * value)) : outcome (list value * list value) :=
  let rest := drop (length args) names in
  if forallb (fun kv => bool_decide (kv.1 ∈ rest)) kwargs then
    vs ← bind_keywords rest kwargs;
    Return (take (length names) args ++ vs, drop (length names) args)
  else Raise TypeError.

Definition example1 : pyfunc := fun args kwargs =>
  lift (bind_params_star [] args kwargs);;
  print [Lit "Executing Example 1"];;
  mret NoneV.

Definition example2 : pyfunc := fun args kwargs =>
  lift (bind_params_star ["mandatory_param"] args kwargs);;
  print [Lit "Executing Example 2"];;
  mret NoneV.

(** A function that never removes or rewrites a line already on the
    console: whatever it is called with, the console it leaves starts with
    the console it found. *)
Definition appends_only (f : pyfunc) : Prop :=
  forall (args : list value) (kwargs : list (string * value)) (w : world),
    stdout w `prefix_of` stdout (f args kwargs w).2.

(** * Properties *)

(** ** Comparison with the literal [0] *)

Lemma is_cmp_Gt_le (o : option comparison) :
  is_cmp Lt o || is_cmp Eq o = true -> is_cmp Gt o = false.
Proof. destruct o as [[]|]; simpl; intros H; try reflexivity; discriminate H. Qed.

Lemma is_cmp_not_Gt (c : comparison) :
  is_cmp Gt (Some c) = false -> is_cmp Lt (Some c) || is_cmp Eq (Some c) = true.
Proof. destruct c; simpl; intros H; try reflexivity; discriminate H. Qed.

Lemma Prim2SF_nan (f : float) : PrimFloat.is_nan f = true -> Prim2SF f = S754_nan.
Proof. intros H. unfold Prim2SF. rewrite H. reflexivity. Qed.

Lemma sf_cmp_Z_ordered (f : float) (z : Z) :
  PrimFloat.is_nan f = false -> exists c, sf_cmp_Z (Prim2SF f) z = Some c.
Proof.
  intros H. unfold Prim2SF. rewrite H.
  destruct (is_zero f); [simpl; eauto|].
  destruct (is_infinity f); [simpl; eauto|].
  destruct (Z.frexp f) as [r ex].
  destruct (shr_fexp _ _ _ _ _) as [shr e'].
  destruct (shr_m shr); simpl; eauto.
Qed.

(** [v <= 0] excludes [v > 0]. *)
Lemma number_le_0_not_gt (v : number) :
  number_le v (Int 0) = true -> number_gt v (Int 0) = false.
Proof.
  destruct v as [z|f]; simpl.
  - intros H. apply Z.leb_le in H. apply Z.ltb_ge. exact H.
  - apply is_cmp_Gt_le.
Qed.

(** A number that is not NaN and not [> 0] is [<= 0]. *)
Lemma number_not_gt_0_le (v : number) :
  number_is_nan v = false -> number_gt v (Int 0) = false -> number_le v (Int 0) = true.
Proof.
  destruct v as [z|f]; simpl.
  - intros _ H. apply Z.ltb_ge in H. apply Z.leb_le. exact H.
  - intros Hnan. destruct (sf_cmp_Z_ordered f 0 Hnan) as [c ->].
    apply is_cmp_not_Gt.
Qed.

(** NaN is neither [> 0] nor [<= 0]. *)
Lemma number_nan_unordered (v : number) :
  number_is_nan v = true ->
  number_gt v (Int 0) = false /\ number_le v (Int 0) = false.
Proof.
  destruct v as [z|f]; simpl; [discriminate|].
  intros H. rewrite (Prim2SF_nan f H). split; reflexivity.
Qed.

(** ** The setter of [Circle.radius] *)

Lemma Circle_radius_set_gt (c : object) (v : number) :
  number_gt v (Int 0) = true ->
  Circle_radius_set v c = (Return tt, <["_radius" := Num v]> c).
Proof. intros H. unfold Circle_radius_set. rewrite H. reflexivity. Qed.

Lemma Circle_radius_set_not_gt (c : object) (v : number) :
  number_gt v (Int 0) = false ->
  Circle_radius_set v c = (Raise (ValueError "Radius must be positive"), c).
Proof. intros H. unfold Circle_radius_set. rewrite H. reflexivity. Qed.

(** C1, as amended: [c.radius = v] stores [v] as the radius when [v > 0] and
    raises [ValueError("Radius must be positive")], leaving the object as it
    was, when [v > 0] is false.  That is the case of every [v <= 0]; for an
    int and for every float other than NaN it is exactly the case [v <= 0];
    NaN, which is neither [> 0] nor [<= 0], is rejected as well. *)
Theorem Circle_radius_set_spec (c : object) (v : number) :
  (number_gt v (Int 0) = true ->
     Circle_radius_set v c = (Return tt, <["_radius" := Num v]> c)) /\
  (number_gt v (Int 0) = false ->
     Circle_radius_set v c = (Raise (ValueError "Radius must be positive"), c)) /\
  (number_le v (Int 0) = true -> number_gt v (Int 0) = false) /\
  (number_is_nan v = false ->
     number_gt v (Int 0) = false -> number_le v (Int 0) = true) /\
  (number_is_nan v = true ->
     number_gt v (Int 0) = false /\ number_le v (Int 0) = false).
Proof.
  split; [apply Circle_radius_set_gt|].
  split; [apply Circle_radius_set_not_gt|].
  split; [apply number_le_0_not_gt|].
  split; [apply number_not_gt_0_le|apply number_nan_unordered].
Qed.

(** C1 as stated fails: the raise does not happen in exactly the case
    [v <= 0].  Assigning NaN raises although [nan <= 0] is false. *)
Lemma Circle_radius_set_nan_counterexample :
  ~ (forall (c : object) (v : number),
       (number_gt v (Int 0) = true ->
          Circle_radius_set v c = (Return tt, <["_radius" := Num v]> c)) /\
       (number_le v (Int 0) = true ->
          Circle_radius_set v c = (Raise (ValueError "Radius must be positive"), c)) /\
       (forall e c', Circle_radius_set v c = (Raise e, c') ->
          number_le v (Int 0) = true)).
Proof.
  intros H. destruct (H ∅ (Float nan)) as (_ & _ & Hexact).
  specialize (Hexact (ValueError "Radius must be positive") ∅ eq_refl).
  vm_compute in Hexact. discriminate Hexact.
Qed.

Lemma Circle_radius_set_spec_witness :
  Circle_radius_set (Int 10) {["_radius" := Num (Int 5)]}
    = (Return tt, <["_radius" := Num (Int 10)]> {["_radius" := Num (Int 5)]}) /\
  Circle_radius_set (Float (-0.5)) {["_radius" := Num (Int 5)]}
    = (Raise (ValueError "Radius must be positive"), {["_radius" := Num (Int 5)]}) /\
  number_gt (Int 0) (Int 0) = false /\
  number_le (Float (-0.5)) (Int 0) = true /\
  (number_gt (Float nan) (Int 0) = false /\ number_le (Float nan) (Int 0) = false).
Proof.
  split.
  { apply (proj1 (Circle_radius_set_spec {["_radius" := Num (Int 5)]} (Int 10))).
    reflexivity. }
  split.
  { apply (proj1 (proj2 (Circle_radius_set_spec {["_radius" := Num (Int 5)]} (Float (-0.5))))).
    vm_compute. reflexivity. }
  split.
  { apply (proj1 (proj2 (proj2 (Circle_radius_set_spec ∅ (Int 0))))). reflexivity. }
  split.
  { apply (proj1 (proj2 (proj2 (proj2 (Circle_radius_set_spec ∅ (Float (-0.5))))))).
    - reflexivity.
    - vm_compute. reflexivity. }
  apply (proj2 (proj2 (proj2 (proj2 (Circle_radius_set_spec ∅ (Float nan)))))).
  reflexivity.
Defined.

(** C6: when [c.radius = v] raises, the error is what the caller gets and
    the Circle is as it was before: the exception is the [ValueError] of the
    validation, [v > 0] was false, the attribute dictionary is unchanged (so
    is every attribute of it, the stored radius included); and the
    assignment of a [v <= 0] does raise so. *)
Theorem Circle_radius_set_raise_unchanged (c c' : object) (v : number) (e : exn) :
  Circle_radius_set v c = (Raise e, c') ->
  e = ValueError "Radius must be positive" /\
  number_gt v (Int 0) = false /\
  c' = c /\
  (forall name : string, c' !! name = c !! name) /\
  Circle_radius c' = Circle_radius c /\
  (forall u : number, number_le u (Int 0) = true ->
     Circle_radius_set u c = (Raise (ValueError "Radius must be positive"), c)).
Proof.
  unfold Circle_radius_set. destruct (number_gt v (Int 0)) eqn:Hgt.
  - intros H. discriminate H.
  - intros H. injection H as <- <-.
    repeat split; try reflexivity.
    intros u Hu. rewrite (number_le_0_not_gt u Hu). reflexivity.
Qed.

Lemma Circle_radius_set_raise_unchanged_witness :
  ValueError "Radius must be positive" = ValueError "Radius must be positive" /\
  number_gt (Int (-3)) (Int 0) = false /\
  ({["_radius" := Num (Int 5)]} : object) = {["_radius" := Num (Int 5)]} /\
  (forall name : string,
     ({["_radius" := Num (Int 5)]} : object) !! name
       = ({["_radius" := Num (Int 5)]} : object) !! name) /\
  Circle_radius {["_radius" := Num (Int 5)]} = Circle_radius {["_radius" := Num (Int 5)]} /\
  (forall u : number, number_le u (Int 0) = true ->
     Circle_radius_set u {["_radius" := Num (Int 5)]}
       = (Raise (ValueError "Radius must be positive"), {["_radius" := Num (Int 5)]})).
Proof.
  apply (Circle_radius_set_raise_unchanged
           {["_radius" := Num (Int 5)]} {["_radius" := Num (Int 5)]} (Int (-3))).
  reflexivity.
Defined.

(** ** The constructor of [Circle] *)

Lemma Circle_singleton (v : value) : Circle v = Return {["_radius" := v]}.
Proof. reflexivity. Qed.

(** C9: [Circle(v)] does not validate: for every value [v] it returns an
    instance whose only attribute is [_radius], holding [v] itself, and the
    getter [radius] returns that [v]; so for zero and for a negative
    number. *)
Theorem Circle_init_no_validation (v : value) :
  Circle v = Return {["_radius" := v]} /\
  ({["_radius" := v]} : object) !! "_radius" = Some v /\
  Circle_radius {["_radius" := v]} = (Return v, {["_radius" := v]}) /\
  Circle (Num (Int 0)) = Return {["_radius" := Num (Int 0)]} /\
  Circle (Num (Int (-5))) = Return {["_radius" := Num (Int (-5))]}.
Proof.
  assert (Hlook : ({["_radius" := v]} : object) !! "_radius" = Some v)
    by apply lookup_singleton_eq.
  split; [apply Circle_singleton|]. split; [exact Hlook|].
  split; [|split; apply Circle_singleton].
  unfold Circle_radius, getattr. rewrite Hlook. reflexivity.
Qed.

(** ** The validation rule along a run of assignments *)

Lemma radius_positive_insert (c : object) (v : number) :
  radius_positive (<["_radius" := Num v]> c) = number_gt v (Int 0).
Proof. unfold radius_positive. rewrite lookup_insert_eq. reflexivity. Qed.

(** One assignment that does not raise leaves a positive radius. *)
Lemma Circle_radius_set_positive (c c' : object) (v : number) :
  Circle_radius_set v c = (Return tt, c') -> radius_positive c' = true.
Proof.
  unfold Circle_radius_set. destruct (number_gt v (Int 0)) eqn:Hgt.
  - intros H. injection H as <-. rewrite radius_positive_insert. exact Hgt.
  - intros H. discriminate H.
Qed.

Lemma assign_all_cons (v : number) (vs : list number) (c : object) :
  assign_all (v :: vs) c =
    match Circle_radius_set v c with
    | (Return _, c1) => assign_all vs c1
    | (Raise e, c1) => (Raise e, c1)
    end.
Proof. reflexivity. Qed.

(** A run of assignments none of which raises keeps a positive radius
    positive. *)
Lemma assign_all_preserves (vs : list number) (c c' : object) :
  radius_positive c = true ->
  assign_all vs c = (Return tt, c') -> radius_positive c' = true.
Proof.
  revert c. induction vs as [|v vs IH]; intros c Hpos.
  - simpl. intros H. injection H as <-. exact Hpos.
  - rewrite assign_all_cons.
    destruct (Circle_radius_set v c) as [[[]|e] c1] eqn:Hset.
    + apply IH. exact (Circle_radius_set_positive _ _ _ Hset).
    + intros H. discriminate H.
Qed.

(** A non-empty run of assignments none of which raises ends with a positive
    radius, whatever the radius was before. *)
Lemma assign_all_nonempty (vs : list number) (c c' : object) :
  vs <> [] ->
  assign_all vs c = (Return tt, c') -> radius_positive c' = true.
Proof.
  destruct vs as [|v vs]; [congruence|]. intros _.
  rewrite assign_all_cons.
  destruct (Circle_radius_set v c) as [[[]|e] c1] eqn:Hset.
  - apply assign_all_preserves. exact (Circle_radius_set_positive _ _ _ Hset).
  - intros H. discriminate H.
Qed.

(** C2, as amended: for a Circle constructed with [Circle(v0)] and a run of
    radius assignments none of which raised, the stored radius is [> 0]
    provided [v0] itself was a number [> 0] or at least one assignment was
    made.  The constructor does not validate, so a Circle that was only
    constructed holds whatever it was given. *)
Theorem Circle_radius_positive_invariant
    (v0 : value) (vs : list number) (c0 c : object) :
  Circle v0 = Return c0 ->
  assign_all vs c0 = (Return tt, c) ->
  radius_positive {["_radius" := v0]} = true \/ vs <> [] ->
  radius_positive c = true.
Proof.
  intros Hnew Hrun [Hpos|Hne].
  - rewrite Circle_singleton in Hnew. injection Hnew as <-.
    exact (assign_all_preserves vs _ _ Hpos Hrun).
  - exact (assign_all_nonempty vs _ _ Hne Hrun).
Qed.

Lemma Circle_radius_positive_invariant_witness :
  radius_positive (<["_radius" := Num (Int 10)]> {["_radius" := Num (Int (-5))]}) = true.
Proof.
  apply (Circle_radius_positive_invariant
           (Num (Int (-5))) [Int 7; Int 10] {["_radius" := Num (Int (-5))]}).
  - reflexivity.
  - vm_compute. reflexivity.
  - right. discriminate.
Defined.

(** C2 as stated fails: [Circle(-5)] with no assignment at all is a Circle
    obtained by construction and an (empty) run of assignments that did not
    raise, and its stored radius is [-5]. *)
Lemma Circle_radius_positive_counterexample :
  ~ (forall (v0 : value) (vs : list number) (c0 c : object),
       Circle v0 = Return c0 ->
       assign_all vs c0 = (Return tt, c) ->
       radius_positive c = true).
Proof.
  intros H.
  specialize (H (Num (Int (-5))) [] {["_radius" := Num (Int (-5))]}
                {["_radius" := Num (Int (-5))]} eq_refl eq_refl).
  vm_compute in H. discriminate H.
Qed.

(** ** The deleter of [Circle.radius] *)

Lemma Circle_radius_del_lookup (c : object) :
  (Circle_radius_del c).2 !! "_radius" = None.
Proof.
  unfold Circle_radius_del, delattr.
  destruct (c !! "_radius") eqn:Hc; simpl.
  - apply lookup_delete_eq.
  - exact Hc.
Qed.

Lemma Circle_radius_missing (c : object) :
  c !! "_radius" = None ->
  Circle_radius c = (Raise (AttributeError "_radius"), c).
Proof. intros H. unfold Circle_radius, getattr. rewrite H. reflexivity. Qed.

Lemma Circle_area_missing float_pow (c : object) :
  c !! "_radius" = None ->
  Circle_area float_pow c = (Raise (AttributeError "_radius"), c).
Proof.
  intros H. unfold Circle_area, mbind, M_bind.
  rewrite (Circle_radius_missing c H). reflexivity.
Qed.

(** C10: after [del c.radius] the attribute [_radius] is gone from the
    instance, and reading [c.radius] or [c.area] then raises
    [AttributeError] and returns nothing.  On a Circle that holds a radius
    the deletion itself succeeds and removes that attribute only. *)
Theorem Circle_radius_del_then_read float_pow (c : object) :
  (Circle_radius_del c).2 !! "_radius" = None /\
  Circle_radius (Circle_radius_del c).2
    = (Raise (AttributeError "_radius"), (Circle_radius_del c).2) /\
  Circle_area float_pow (Circle_radius_del c).2
    = (Raise (AttributeError "_radius"), (Circle_radius_del c).2) /\
  (is_Some (c !! "_radius") ->
     Circle_radius_del c = (Return tt, delete "_radius" c)).
Proof.
  pose proof (Circle_radius_del_lookup c) as Hgone.
  split; [exact Hgone|].
  split; [exact (Circle_radius_missing _ Hgone)|].
  split; [exact (Circle_area_missing float_pow _ Hgone)|].
  intros [v Hv]. unfold Circle_radius_del, delattr. rewrite Hv. reflexivity.
Qed.

(** ** The property [Circle.area] *)

Lemma int_to_float_2 : int_to_float 2 = Return 2%float.
Proof. vm_compute. reflexivity. Qed.

Lemma Circle_radius_stored (c : object) (v : value) :
  c !! "_radius" = Some v -> Circle_radius c = (Return v, c).
Proof. intros H. unfold Circle_radius, getattr. rewrite H. reflexivity. Qed.

Lemma py_pow_Int_2 float_pow (z : Z) :
  py_pow float_pow (Int z) 2 = Return (Int (z * z)).
Proof. unfold py_pow. change (0 <=? 2) with true. rewrite Z.pow_2_r. reflexivity. Qed.

Lemma py_pow_Float_2 float_pow (x : float) :
  py_pow float_pow (Float x) 2 = Float <$> float_pow x 2%float.
Proof. unfold py_pow. rewrite int_to_float_2. reflexivity. Qed.

(** Reading [c.area] is the getter followed by [3.14 * radius ** 2], on an
    object that does not change. *)
Lemma Circle_area_unfold float_pow (c : object) :
  Circle_area float_pow c =
    (match c !! "_radius" with
     | Some radius =>
         r ← as_number radius;
         sq ← py_pow float_pow r 2;
         Num <$> py_mul (Float lit_3_14) sq
     | None => Raise (AttributeError "_radius")
     end, c).
Proof.
  unfold Circle_area, Circle_radius, getattr, mbind at 1, M_bind.
  destruct (c !! "_radius"); reflexivity.
Qed.

Lemma Circle_area_Int float_pow (c : object) (z : Z) (f : float) :
  c !! "_radius" = Some (Num (Int z)) ->
  int_to_float (z * z) = Return f ->
  Circle_area float_pow c = (Return (Num (Float (lit_3_14 * f))), c).
Proof.
  intros Hc Hf. rewrite Circle_area_unfold, Hc.
  change (as_number (Num (Int z))) with (Return (A:=number) (Int z)).
  change (Return (Int z) ≫= ?k) with (k (Int z)). cbv beta.
  rewrite py_pow_Int_2.
  change (Return (Int (z * z)) ≫= ?k) with (k (Int (z * z))). cbv beta.
  change (py_mul (Float lit_3_14) (Int (z * z)))
    with (fy ← int_to_float (z * z); Return (Float (lit_3_14 * fy))).
  rewrite Hf. reflexivity.
Qed.

Lemma Circle_area_Int_overflow float_pow (c : object) (z : Z) :
  c !! "_radius" = Some (Num (Int z)) ->
  int_to_float (z * z) = Raise OverflowError ->
  Circle_area float_pow c = (Raise OverflowError, c).
Proof.
  intros Hc Hf. rewrite Circle_area_unfold, Hc.
  change (as_number (Num (Int z))) with (Return (A:=number) (Int z)).
  change (Return (Int z) ≫= ?k) with (k (Int z)). cbv beta.
  rewrite py_pow_Int_2.
  change (Return (Int (z * z)) ≫= ?k) with (k (Int (z * z))). cbv beta.
  change (py_mul (Float lit_3_14) (Int (z * z)))
    with (fy ← int_to_float (z * z); Return (Float (lit_3_14 * fy))).
  rewrite Hf. reflexivity.
Qed.

Lemma Circle_area_Float float_pow (c : object) (x sq : float) :
  c !! "_radius" = Some (Num (Float x)) ->
  float_pow x 2%float = Return sq ->
  Circle_area float_pow c = (Return (Num (Float (lit_3_14 * sq))), c).
Proof.
  intros Hc Hsq. rewrite Circle_area_unfold, Hc.
  change (as_number (Num (Float x))) with (Return (A:=number) (Float x)).
  change (Return (Float x) ≫= ?k) with (k (Float x)). cbv beta.
  rewrite py_pow_Float_2, Hsq. reflexivity.
Qed.

(** What reading [area] comes to for each kind of stored radius. *)
Lemma Circle_area_cases float_pow (c : object) :
  Circle_area float_pow c =
    (match c !! "_radius" with
     | Some (Num (Int z)) =>
         f ← int_to_float (z * z); Return (Num (Float (lit_3_14 * f)))
     | Some (Num (Float x)) =>
         sq ← float_pow x 2%float; Return (Num (Float (lit_3_14 * sq)))
     | Some _ => Raise TypeError
     | None => Raise (AttributeError "_radius")
     end, c).
Proof.
  rewrite Circle_area_unfold.
  destruct (c !! "_radius") as [[[z|x]|s|]|]; try reflexivity.
  - change (as_number (Num (Int z))) with (Return (A:=number) (Int z)).
    change (Return (Int z) ≫= ?k) with (k (Int z)). cbv beta.
    rewrite py_pow_Int_2.
    change (Return (Int (z * z)) ≫= ?k) with (k (Int (z * z))). cbv beta.
    change (py_mul (Float lit_3_14) (Int (z * z)))
      with (fy ← int_to_float (z * z); Return (Float (lit_3_14 * fy))).
    destruct (int_to_float (z * z)); reflexivity.
  - change (as_number (Num (Float x))) with (Return (A:=number) (Float x)).
    change (Return (Float x) ≫= ?k) with (k (Float x)). cbv beta.
    rewrite py_pow_Float_2. destruct (float_pow x 2%float); reflexivity.
Qed.

(** C8, as amended: reading [c.area] never modifies the Circle, and what it
    gives is decided by the radius the Circle holds at that moment.  For an
    int radius [z] whose square converts to a float it returns the float
    product of 3.14 and that float, and raises [OverflowError] when the
    square is too large to convert.  For a float radius it returns the float
    product of 3.14 and the float power [x ** 2], and raises what that power
    raises (its overflow).  For a radius that is not a number it raises
    [TypeError], and with no radius [AttributeError].  After [Circle(5)] and
    [c.radius = 10], [c.radius] is [10] and [c.area] is [314.0]. *)
Theorem Circle_area_spec float_pow (c : object) :
  Circle_area float_pow c =
    (match c !! "_radius" with
     | Some (Num (Int z)) =>
         f ← int_to_float (z * z); Return (Num (Float (lit_3_14 * f)))
     | Some (Num (Float x)) =>
         sq ← float_pow x 2%float; Return (Num (Float (lit_3_14 * sq)))
     | Some _ => Raise TypeError
     | None => Raise (AttributeError "_radius")
     end, c) /\
  (Circle_area float_pow c).2 = c /\
  (exists c0 c1 : object,
     Circle (Num (Int 5)) = Return c0 /\
     Circle_radius_set (Int 10) c0 = (Return tt, c1) /\
     Circle_radius c1 = (Return (Num (Int 10)), c1) /\
     Circle_area float_pow c1 = (Return (Num (Float 314)), c1)).
Proof.
  split; [apply Circle_area_cases|].
  split; [rewrite Circle_area_cases; reflexivity|].
  exists {["_radius" := Num (Int 5)]},
         (<["_radius" := Num (Int 10)]> {["_radius" := Num (Int 5)]}).
  assert (Hlook : (<["_radius" := Num (Int 10)]> {["_radius" := Num (Int 5)]} : object)
                    !! "_radius" = Some (Num (Int 10))) by apply lookup_insert_eq.
  split; [apply Circle_singleton|].
  split; [apply Circle_radius_set_gt; reflexivity|].
  split; [apply Circle_radius_stored; exact Hlook|].
  rewrite (Circle_area_Int float_pow _ 10 100%float Hlook).
  - f_equal.
  - vm_compute. reflexivity.
Qed.

(** C8 as stated fails: reading [area] does not return a value for every
    Circle.  [Circle(10 ** 200)] is accepted by the constructor, and reading
    its [area] raises [OverflowError], the square being too large for a
    float. *)
Lemma Circle_area_overflow_counterexample :
  ~ (forall (float_pow : float -> float -> outcome float) (radius : value) (c : object),
       Circle radius = Return c ->
       exists v : value, Circle_area float_pow c = (Return v, c)).
Proof.
  intros H.
  destruct (H (fun x _ => Return (x * x)%float) (Num (Int (10 ^ 200)))
              {["_radius" := Num (Int (10 ^ 200))]} (Circle_singleton _)) as [v Hv].
  rewrite (Circle_area_Int_overflow _ _ (10 ^ 200)) in Hv.
  - discriminate Hv.
  - apply lookup_singleton_eq.
  - vm_compute. reflexivity.
Qed.

(** ** log *)

(** The calling line can be formatted exactly when no int among the
    arguments, positional or keyword, has too many digits. *)
Lemma calling_line_formattable (args : list value) (kwargs : list (string * value)) :
  line_formattable (calling_line args kwargs) =
    forallb value_formattable args && forallb (fun kv => value_formattable kv.2) kwargs.
Proof.
  unfold line_formattable, calling_line. cbn [forallb piece_formattable].
  rewrite !andb_true_r. reflexivity.
Qed.

Lemma log_unfold (func : pyfunc) (args : list value)
    (kwargs : list (string * value)) (w : world) :
  log func args kwargs w =
    if line_formattable (calling_line args kwargs) then
      match func args kwargs (printed (calling_line args kwargs) w) with
      | (Return _, w2) => (Return NoneV, printed complete_line w2)
      | (Raise e, w2) => (Raise e, w2)
      end
    else (Raise digits_error, w).
Proof.
  unfold log, mbind, M_bind, print.
  destruct (line_formattable (calling_line args kwargs)); [|reflexivity].
  destruct (func args kwargs (printed (calling_line args kwargs) w)) as [[v|e] w2];
    reflexivity.
Qed.

(** C3, as amended: the wrapper returned by [log(func)] first formats and
    prints the calling line.  When an int among the arguments has more than
    4300 digits the formatting raises [ValueError]: nothing is printed and
    [func] is not run.  Otherwise the wrapper runs [func] once on exactly
    the arguments it was given, in the world that printing left.  When
    [func] returns, the wrapper prints the completion line after whatever
    [func] printed, drops [func]'s result and returns [None].  When [func]
    raises, the exception reaches the wrapper's caller, in the world [func]
    left, and no completion line is printed. *)
Theorem log_spec (func : pyfunc) (args : list value)
    (kwargs : list (string * value)) (w : world) :
  log func args kwargs w =
    (if forallb value_formattable args
        && forallb (fun kv => value_formattable kv.2) kwargs
     then
       match func args kwargs (printed (calling_line args kwargs) w) with
       | (Return _, w2) => (Return NoneV, printed complete_line w2)
       | (Raise e, w2) => (Raise e, w2)
       end
     else (Raise digits_error, w)) /\
  (forall (v : value) (w2 : world) (out : list line),
     forallb value_formattable args
       && forallb (fun kv => value_formattable kv.2) kwargs = true ->
     func args kwargs (printed (calling_line args kwargs) w) = (Return v, w2) ->
     stdout w2 = stdout (printed (calling_line args kwargs) w) ++ out ->
     exists w3,
       log func args kwargs w = (Return NoneV, w3) /\
       stdout w3 = stdout w ++ [calling_line args kwargs] ++ out ++ [complete_line] /\
       MyClass_dict w3 = MyClass_dict w2) /\
  (forall (e : exn) (w2 : world),
     forallb value_formattable args
       && forallb (fun kv => value_formattable kv.2) kwargs = true ->
     func args kwargs (printed (calling_line args kwargs) w) = (Raise e, w2) ->
     log func args kwargs w = (Raise e, w2)) /\
  (forallb value_formattable args
     && forallb (fun kv => value_formattable kv.2) kwargs = false ->
   log func args kwargs w = (Raise digits_error, w)).
Proof.
  rewrite <- calling_line_formattable.
  split; [apply log_unfold|]. split; [|split].
  - intros v w2 out Hfmt Hf Hout. exists (printed complete_line w2).
    rewrite log_unfold, Hfmt, Hf. split; [reflexivity|]. split; [|reflexivity].
    simpl. rewrite Hout. simpl. rewrite <- !app_assoc. reflexivity.
  - intros e w2 Hfmt Hf. rewrite log_unfold, Hfmt, Hf. reflexivity.
  - intros Hfmt. rewrite log_unfold, Hfmt. reflexivity.
Qed.

Lemma log_spec_witness :
  (exists w3,
     log add [Num (Int 1); Num (Int 2)] [] initial_world = (Return NoneV, w3) /\
     stdout w3 = stdout initial_world
                   ++ [calling_line [Num (Int 1); Num (Int 2)] []]
                   ++ [[Lit "Sum = "; Fmt (Num (Int 3))]] ++ [complete_line] /\
     MyClass_dict w3 = MyClass_dict initial_world) /\
  log add [Num (Int 1)] [] initial_world
    = (Raise TypeError, printed (calling_line [Num (Int 1)] []) initial_world) /\
  log add [Num (Int (10 ^ 4300)); Num (Int 0)] [] initial_world
    = (Raise digits_error, initial_world).
Proof.
  split; [|split].
  - apply (proj1 (proj2 (log_spec add [Num (Int 1); Num (Int 2)] [] initial_world))
             (Num (Int 3))
             (printed [Lit "Sum = "; Fmt (Num (Int 3))]
                (printed (calling_line [Num (Int 1); Num (Int 2)] []) initial_world))).
    + vm_compute. reflexivity.
    + vm_compute. reflexivity.
    + reflexivity.
  - apply (proj1 (proj2 (proj2 (log_spec add [Num (Int 1)] [] initial_world)))).
    + vm_compute. reflexivity.
    + vm_compute. reflexivity.
  - apply (proj2 (proj2 (proj2
             (log_spec add [Num (Int (10 ^ 4300)); Num (Int 0)] [] initial_world)))).
    vm_compute. reflexivity.
Defined.

(** C3 as stated fails: not every call of the wrapper prints the completion
    line and returns [None].  [log(add)(1)] prints the calling line and then
    raises the [TypeError] of [add(1)]. *)
Lemma log_add_missing_argument_counterexample :
  ~ (forall (func : pyfunc) (args : list value)
            (kwargs : list (string * value)) (w : world),
       exists w',
         log func args kwargs w = (Return NoneV, w') /\
         last (stdout w') = Some complete_line).
Proof.
  intros H. destruct (H add [Num (Int 1)] [] initial_world) as (w' & Hrun & _).
  rewrite log_unfold in Hrun. vm_compute in Hrun. discriminate Hrun.
Qed.

(** The run of the script, [log_add(1, 2)], from the start. *)
Example log_add_1_2 :
  log add [Num (Int 1); Num (Int 2)] [] initial_world =
    (Return NoneV,
     {| stdout := [ [Lit "Calling the wrapped function with arguments ";
                     FmtTuple [Num (Int 1); Num (Int 2)]; Lit ", "; FmtDict []];
                    [Lit "Sum = "; Fmt (Num (Int 3))];
                    [Lit "Wrapped function execution complete!"] ];
        MyClass_dict := MyClass_dict initial_world |}).
Proof. vm_compute. reflexivity. Qed.

(** [log(add)(1)]: the calling line is the only one printed. *)
Example log_add_1 :
  log add [Num (Int 1)] [] initial_world =
    (Raise TypeError, printed (calling_line [Num (Int 1)] []) initial_world).
Proof. vm_compute. reflexivity. Qed.

(** A wrapped function with an effect has it once: wrapping the counter's
    increment and calling the wrapper moves the counter from 0 to 1. *)
Example log_increment_once :
  (MyClass_count
     (log (fun _ _ => MyClass_increment_count;; mret NoneV) [] [] initial_world).2).1
  = Return (Num (Int 1)).
Proof. vm_compute. reflexivity. Qed.

(** ** Person.from_birth_year *)

Lemma int_to_float_2025 : int_to_float 2025 = Return 2025%float.
Proof. vm_compute. reflexivity. Qed.

Lemma py_sub_2025 (birth_year : number) :
  py_sub (Int 2025) birth_year =
    Return match birth_year with
           | Int y => Int (2025 - y)
           | Float f => Float (2025 - f)
           end.
Proof.
  destruct birth_year as [y|f]; [reflexivity|].
  unfold py_sub, arith. rewrite int_to_float_2025. reflexivity.
Qed.

(** The call returns, does not touch the world, and the instance it returns
    has the two attributes that [__init__] sets. *)
Lemma Person_from_birth_year_run (name : value) (birth_year : number) (w : world) :
  Person_from_birth_year name birth_year w =
    (Return (<["age" := Num match birth_year with
                            | Int y => Int (2025 - y)
                            | Float f => Float (2025 - f)
                            end]> (<["name" := name]> ∅)), w).
Proof.
  unfold Person_from_birth_year, mbind, M_bind, lift.
  rewrite py_sub_2025. reflexivity.
Qed.

(** C4: for every name and every birth year, [Person.from_birth_year]
    returns a Person whose [name] is the name given and whose [age] is
    [2025 - birth_year] (exact on an int, the float difference on a float),
    with no other attribute; for the birth year 1990 the age is 35. *)
Theorem Person_from_birth_year_spec (name : value) (birth_year : number) (w : world) :
  (exists p : object,
     Person_from_birth_year name birth_year w = (Return p, w) /\
     p !! "name" = Some name /\
     p !! "age" = Some (Num match birth_year with
                            | Int y => Int (2025 - y)
                            | Float f => Float (2025 - f)
                            end) /\
     dom p = {["name"; "age"]}) /\
  (exists p : object,
     Person_from_birth_year name (Int 1990) w = (Return p, w) /\
     p !! "name" = Some name /\
     p !! "age" = Some (Num (Int 35))).
Proof.
  split.
  - eexists. split; [apply Person_from_birth_year_run|].
    split; [rewrite lookup_insert_ne by discriminate; apply lookup_insert_eq|].
    split; [apply lookup_insert_eq|].
    rewrite !dom_insert_L, dom_empty_L. set_solver.
  - eexists. split; [apply Person_from_birth_year_run|].
    split; [rewrite lookup_insert_ne by discriminate; apply lookup_insert_eq|].
    apply lookup_insert_eq.
Qed.

(** C7: [Person.from_birth_year] is deterministic and reads nothing but its
    arguments: called with the same name and birth year in any two worlds,
    both calls return, leave their world as it was, and the two instances
    have the same [name] and the same [age] (indeed the same attributes
    altogether). *)
Theorem Person_from_birth_year_deterministic
    (name : value) (birth_year : number) (w1 w2 : world) :
  exists p1 p2 : object,
    Person_from_birth_year name birth_year w1 = (Return p1, w1) /\
    Person_from_birth_year name birth_year w2 = (Return p2, w2) /\
    p1 !! "name" = p2 !! "name" /\
    p1 !! "age" = p2 !! "age" /\
    p1 = p2.
Proof.
  eexists _, _.
  split; [apply Person_from_birth_year_run|].
  split; [apply Person_from_birth_year_run|].
  repeat split.
Qed.

(** ** MyClass.increment_count *)

Lemma MyClass_increment_count_step (w : world) (k : Z) :
  MyClass_dict w !! "count" = Some (Num (Int k)) ->
  MyClass_increment_count w =
    (Return tt,
     {| stdout := stdout w;
        MyClass_dict := <["count" := Num (Int (k + 1))]> (MyClass_dict w) |}).
Proof.
  intros H. unfold MyClass_increment_count, on_MyClass, mbind, M_bind, getattr.
  rewrite H. reflexivity.
Qed.

Lemma MyClass_count_read (w : world) (v : value) :
  MyClass_dict w !! "count" = Some v -> MyClass_count w = (Return v, w).
Proof.
  intros H. unfold MyClass_count, on_MyClass, getattr. rewrite H.
  destruct w; reflexivity.
Qed.

Lemma increment_times_count (n : nat) (w : world) (k : Z) :
  MyClass_dict w !! "count" = Some (Num (Int k)) ->
  exists w',
    increment_times n w = (Return tt, w') /\
    MyClass_dict w' !! "count" = Some (Num (Int (k + Z.of_nat n))) /\
    stdout w' = stdout w.
Proof.
  revert w k. induction n as [|n IH]; intros w k Hk.
  - exists w. rewrite Z.add_0_r. repeat split. exact Hk.
  - cbn [increment_times]. unfold mbind, M_bind.
    rewrite (MyClass_increment_count_step w k Hk).
    destruct (IH {| stdout := stdout w;
                    MyClass_dict := <["count" := Num (Int (k + 1))]> (MyClass_dict w) |}
                 (k + 1)) as (w' & Hrun & Hcount & Hout).
    { apply lookup_insert_eq. }
    exists w'. split; [exact Hrun|]. split; [|exact Hout].
    rewrite Hcount. do 3 f_equal. lia.
Qed.

(** C5: [MyClass.count] starts at 0; a call of [MyClass.increment_count]
    with the counter at [k] returns and leaves it at [k + 1], touching
    nothing else; [n] calls from the start leave it at [n], which is also
    what every instance without a [count] of its own reads, the counter
    being the class's; one call from the start gives 1. *)
Theorem MyClass_increment_count_spec :
  MyClass_count initial_world = (Return (Num (Int 0)), initial_world) /\
  (forall (w : world) (k : Z),
     MyClass_dict w !! "count" = Some (Num (Int k)) ->
     MyClass_increment_count w =
       (Return tt,
        {| stdout := stdout w;
           MyClass_dict := <["count" := Num (Int (k + 1))]> (MyClass_dict w) |})) /\
  (forall n : nat,
     exists w,
       increment_times n initial_world = (Return tt, w) /\
       MyClass_count w = (Return (Num (Int (Z.of_nat n))), w) /\
       (forall obj : object,
          obj !! "count" = None ->
          MyClass_instance_count obj w = (Return (Num (Int (Z.of_nat n))), w))) /\
  (exists w,
     MyClass_increment_count initial_world = (Return tt, w) /\
     MyClass_count w = (Return (Num (Int 1)), w)).
Proof.
  split; [reflexivity|].
  split; [exact MyClass_increment_count_step|].
  split.
  - intros n.
    destruct (increment_times_count n initial_world 0) as (w & Hrun & Hcount & _);
      [reflexivity|].
    rewrite Z.add_0_l in Hcount.
    exists w. split; [exact Hrun|].
    pose proof (MyClass_count_read w _ Hcount) as Hread.
    split; [exact Hread|].
    intros obj Hobj. unfold MyClass_instance_count. rewrite Hobj. exact Hread.
  - eexists. split; [apply (MyClass_increment_count_step initial_world 0); reflexivity|].
    apply MyClass_count_read. apply lookup_insert_eq.
Qed.

Lemma MyClass_increment_count_spec_witness :
  MyClass_increment_count
    {| stdout := []; MyClass_dict := {["count" := Num (Int 41)]} |} =
    (Return tt,
     {| stdout := [];
        MyClass_dict := <["count" := Num (Int (41 + 1))]> {["count" := Num (Int 41)]} |}).
Proof.
  exact (proj1 (proj2 MyClass_increment_count_spec)
           {| stdout := []; MyClass_dict := {["count" := Num (Int 41)]} |} 41
           eq_refl).
Defined.

(** ** Instances of the statements above *)

Lemma Circle_radius_del_then_read_witness :
  Circle_radius_del {["_radius" := Num (Int 10)]}
    = (Return tt, delete "_radius" {["_radius" := Num (Int 10)]}).
Proof.
  apply (proj2 (proj2 (proj2 (Circle_radius_del_then_read
                                (fun x _ => Return (x * x)%float)
                                {["_radius" := Num (Int 10)]})))).
  exists (Num (Int 10)). reflexivity.
Defined.

(** * Further properties of the script's functions *)

(** ** add *)

(** X1: the four ways of passing [add] its two arguments (both positional,
    the second by keyword, both by keyword in either order) are the same
    call: same result, same world. *)
Theorem add_call_forms (a b : value) (w : world) :
  add [a] [("num2", b)] w = add [a; b] [] w /\
  add [] [("num1", a); ("num2", b)] w = add [a; b] [] w /\
  add [] [("num2", b); ("num1", a)] w = add [a; b] [] w.
Proof. repeat split; reflexivity. Qed.

(** X2: called with positional arguments only, [add] needs exactly two:
    with any other number it raises [TypeError] before printing anything. *)
Theorem add_wrong_arity (args : list value) (w : world) :
  length args <> 2%nat -> add args [] w = (Raise TypeError, w).
Proof.
  intros H. destruct args as [|a [|b [|c args]]]; try reflexivity.
  exfalso. apply H. reflexivity.
Qed.

Lemma add_wrong_arity_witness :
  add [Num (Int 1); Num (Int 2); Num (Int 3)] [] initial_world
    = (Raise TypeError, initial_world).
Proof.
  apply (add_wrong_arity [Num (Int 1); Num (Int 2); Num (Int 3)] initial_world).
  discriminate.
Defined.

(** Every run of [add] is of one of two kinds. *)
Lemma add_cases (args : list value) (kwargs : list (string * value)) (w : world) :
  (exists e, add args kwargs w = (Raise e, w)) \/
  (exists v, add args kwargs w = (Return v, printed [Lit "Sum = "; Fmt v] w)).
Proof.
  unfold add, mbind, M_bind, lift.
  destruct (bind_params ["num1"; "num2"] args kwargs) as [ps|e]; [|left; eauto].
  destruct ps as [|num1 [|num2 [|x ps]]]; try (left; eexists; reflexivity).
  destruct (value_add num1 num2) as [v|e]; [|left; eexists; reflexivity].
  unfold print.
  destruct (line_formattable [Lit "Sum = "; Fmt v]); [right|left];
    eexists; reflexivity.
Qed.

(** X3: whatever it is called with, [add] either raises without having
    printed or changed anything, or returns a value and has printed exactly
    one line, "Sum = " followed by that same value. *)
Theorem add_prints_what_it_returns
    (args : list value) (kwargs : list (string * value)) (w : world) :
  (exists e, add args kwargs w = (Raise e, w)) \/
  (exists v, add args kwargs w = (Return v, printed [Lit "Sum = "; Fmt v] w) /\
             stdout (add args kwargs w).2 = stdout w ++ [[Lit "Sum = "; Fmt v]] /\
             MyClass_dict (add args kwargs w).2 = MyClass_dict w).
Proof.
  destruct (add_cases args kwargs w) as [He|[v Hv]]; [left; exact He|right].
  exists v. rewrite Hv. repeat split.
Qed.

(** [add] on two ints: the sum is computed, then its line is formatted. *)
Lemma add_ints (x y : Z) (w : world) :
  add [Num (Int x); Num (Int y)] [] w =
    if int_formattable (x + y)
    then (Return (Num (Int (x + y))),
          printed [Lit "Sum = "; Fmt (Num (Int (x + y)))] w)
    else (Raise digits_error, w).
Proof.
  change (add [Num (Int x); Num (Int y)] [] w)
    with (match print [Lit "Sum = "; Fmt (Num (Int (x + y)))] w with
          | (Return _, s') => (Return (Num (Int (x + y))), s')
          | (Raise e, s') => (Raise e, s')
          end).
  unfold print, line_formattable. cbn [forallb piece_formattable value_formattable].
  rewrite andb_true_r. destruct (int_formattable (x + y)); reflexivity.
Qed.

(** X4: [add] of two ints computes their exact sum; when the sum has at
    most 4300 digits it prints it and returns it, otherwise formatting the
    line raises [ValueError] and nothing is printed or returned.  [add] of
    two strings returns their concatenation; a string with a number, in
    either order, is a [TypeError] and nothing is printed. *)
Theorem add_by_type (w : world) :
  (forall x y : Z,
     add [Num (Int x); Num (Int y)] [] w =
       if Z.abs (x + y) <? 10 ^ 4300
       then (Return (Num (Int (x + y))),
             printed [Lit "Sum = "; Fmt (Num (Int (x + y)))] w)
       else (Raise digits_error, w)) /\
  (forall s t : string,
     add [Str s; Str t] [] w =
       (Return (Str (s +:+ t)), printed [Lit "Sum = "; Fmt (Str (s +:+ t))] w)) /\
  (forall (s : string) (n : number),
     add [Str s; Num n] [] w = (Raise TypeError, w) /\
     add [Num n; Str s] [] w = (Raise TypeError, w)).
Proof.
  split; [intros x y; apply add_ints|].
  repeat split; reflexivity.
Qed.

(** ** log, stacked and over the console *)

(** X5: decorating twice nests the messages.  When an int among the
    arguments has more than 4300 digits, [log(log(func))] raises
    [ValueError] at once, printing nothing and not running [func].
    Otherwise it prints the calling line twice, runs [func] once, and when
    [func] returns prints the completion line twice and returns [None];
    when [func] raises, the exception passes through both wrappers and no
    completion line is printed. *)
Theorem log_log (func : pyfunc) (args : list value)
    (kwargs : list (string * value)) (w : world) :
  log (log func) args kwargs w =
    if forallb value_formattable args
       && forallb (fun kv => value_formattable kv.2) kwargs
    then
      match func args kwargs
              (printed (calling_line args kwargs) (printed (calling_line args kwargs) w))
      with
      | (Return _, w2) => (Return NoneV, printed complete_line (printed complete_line w2))
      | (Raise e, w2) => (Raise e, w2)
      end
    else (Raise digits_error, w).
Proof.
  rewrite (log_unfold (log func)), (log_unfold func), calling_line_formattable.
  destruct (forallb value_formattable args
            && forallb (fun kv => value_formattable kv.2) kwargs); [|reflexivity].
  destruct (func args kwargs _) as [[v|e] w2]; reflexivity.
Qed.

Lemma printed_prefix (l : line) (w : world) :
  stdout w `prefix_of` stdout (printed l w).
Proof. simpl. apply prefix_app_r. reflexivity. Qed.

Lemma add_appends_only : appends_only add.
Proof.
  intros args kwargs w.
  destruct (add_cases args kwargs w) as [[e ->]|[v ->]]; simpl.
  - reflexivity.
  - apply prefix_app_r. reflexivity.
Qed.

(** X6: the decorator keeps the console append-only: if [func] never removes
    or rewrites a printed line, neither does [log(func)]. *)
Theorem log_appends_only (func : pyfunc) :
  appends_only func -> appends_only (log func).
Proof.
  intros Hf args kwargs w. rewrite log_unfold.
  destruct (line_formattable (calling_line args kwargs)); [|reflexivity].
  pose proof (Hf args kwargs (printed (calling_line args kwargs) w)) as Hrun.
  destruct (func args kwargs (printed (calling_line args kwargs) w)) as [[v|e] w2];
    simpl in Hrun |- *.
  - apply prefix_app_r. etrans; [|exact Hrun]. apply prefix_app_r. reflexivity.
  - etrans; [|exact Hrun]. apply prefix_app_r. reflexivity.
Qed.

Lemma log_appends_only_witness : appends_only (log add).
Proof. apply (log_appends_only add). exact add_appends_only. Defined.

(** ** example1 and example2 *)

Lemma bind_params_star_keyword_unknown (names : list string) (args : list value)
    (kv : string * value) (kwargs : list (string * value)) :
  (length names <= length args)%nat ->
  bind_params_star names args (kv :: kwargs) = Raise TypeError.
Proof.
  intros H. unfold bind_params_star.
  rewrite drop_ge by exact H. cbn [forallb].
  rewrite bool_decide_eq_false_2 by apply not_elem_of_nil. reflexivity.
Qed.

(** X7: [example1] takes any number of positional arguments, and with none
    or many prints its one line and returns [None]; it has no [**kwargs], so
    any keyword argument is a [TypeError] and nothing is printed. *)
Theorem example1_any_positional (args : list value) (w : world) :
  example1 args [] w = (Return NoneV, printed [Lit "Executing Example 1"] w) /\
  (forall (kv : string * value) (kwargs : list (string * value)),
     example1 args (kv :: kwargs) w = (Raise TypeError, w)).
Proof.
  split.
  - unfold example1, mbind, M_bind, lift, bind_params_star.
    rewrite drop_nil. reflexivity.
  - intros kv kwargs. unfold example1, mbind, M_bind, lift.
    rewrite bind_params_star_keyword_unknown by (simpl; lia). reflexivity.
Qed.

(** X8: [example2] needs its mandatory parameter: with no argument at all it
    raises [TypeError] and prints nothing; with at least one positional
    argument (the first is the mandatory one, the rest is collected) or with
    the mandatory parameter alone passed by keyword it prints its line and
    returns [None]; a keyword argument on top of a positional one is a
    [TypeError]. *)
Theorem example2_mandatory (w : world) :
  example2 [] [] w = (Raise TypeError, w) /\
  (forall (a : value) (args : list value),
     example2 (a :: args) [] w
       = (Return NoneV, printed [Lit "Executing Example 2"] w)) /\
  (forall v : value,
     example2 [] [("mandatory_param", v)] w
       = (Return NoneV, printed [Lit "Executing Example 2"] w)) /\
  (forall (a : value) (args : list value)
          (kv : string * value) (kwargs : list (string * value)),
     example2 (a :: args) (kv :: kwargs) w = (Raise TypeError, w)).
Proof.
  split; [reflexivity|]. split; [|split; [reflexivity|]].
  - intros a args. unfold example2, mbind, M_bind, lift, bind_params_star.
    cbn [length drop]. rewrite drop_nil. reflexivity.
  - intros a args kv kwargs. unfold example2, mbind, M_bind, lift.
    rewrite bind_params_star_keyword_unknown by (simpl; lia). reflexivity.
Qed.

(** ** Person *)

Lemma Person_attributes (name age : value) :
  Person name age = Return (<["age" := age]> (<["name" := name]> ∅)).
Proof. reflexivity. Qed.

(** X9: [Person(name, age)] never raises and returns an instance with
    exactly the attributes [name] and [age], each holding the argument it
    was given, whatever those values are. *)
Theorem Person_init_stores (name age : value) :
  exists p : object,
    Person name age = Return p /\
    p !! "name" = Some name /\
    p !! "age" = Some age /\
    dom p = {["name"; "age"]} /\
    getattr "name" p = (Return name, p) /\
    getattr "age" p = (Return age, p).
Proof.
  eexists. split; [apply Person_attributes|].
  assert (Hn : (<["age" := age]> (<["name" := name]> ∅) : object) !! "name" = Some name).
  { rewrite lookup_insert_ne by discriminate. apply lookup_insert_eq. }
  assert (Ha : (<["age" := age]> (<["name" := name]> ∅) : object) !! "age" = Some age)
    by apply lookup_insert_eq.
  split; [exact Hn|]. split; [exact Ha|]. split.
  - rewrite !dom_insert_L, dom_empty_L. set_solver.
  - unfold getattr. rewrite Hn, Ha. split; reflexivity.
Qed.

(** X10: the factory is the constructor after the subtraction: for an int
    birth year [y], [Person.from_birth_year(name, y)] returns the instance
    that [Person(name, 2025 - y)] returns, and the age [a] of that instance
    satisfies [a + y = 2025]; so a birth year after 2025 is accepted and
    gives a negative age. *)
Theorem Person_from_birth_year_is_constructor (name : value) (y : Z) (w : world) :
  Person_from_birth_year name (Int y) w = (Person name (Num (Int (2025 - y))), w) /\
  (exists (p : object) (a : Z),
     Person_from_birth_year name (Int y) w = (Return p, w) /\
     p !! "age" = Some (Num (Int a)) /\
     a + y = 2025 /\
     (2025 < y <-> a < 0)).
Proof.
  split.
  - rewrite Person_from_birth_year_run, Person_attributes. reflexivity.
  - eexists _, (2025 - y). split; [apply Person_from_birth_year_run|].
    split; [apply lookup_insert_eq|]. lia.
Qed.

(** ** Circle: the property [radius] along several operations *)

Lemma seq_Return {S A B} (m : M S A) (k : M S B) (s s1 : S) (a : A) :
  m s = (Return a, s1) -> (m;; k) s = k s1.
Proof. intros H. unfold mbind, M_bind. rewrite H. reflexivity. Qed.

Lemma seq_Raise {S A B} (m : M S A) (k : M S B) (s s1 : S) (e : exn) :
  m s = (Raise e, s1) -> (m;; k) s = (Raise e, s1).
Proof. intros H. unfold mbind, M_bind. rewrite H. reflexivity. Qed.

(** X11: an accepted assignment is read back by the getter and touches no
    other attribute of the instance. *)
Theorem Circle_radius_set_get (c : object) (v : number) :
  number_gt v (Int 0) = true ->
  exists c' : object,
    Circle_radius_set v c = (Return tt, c') /\
    Circle_radius c' = (Return (Num v), c') /\
    (forall name : string, name <> "_radius" -> c' !! name = c !! name).
Proof.
  intros Hgt. exists (<["_radius" := Num v]> c).
  split; [exact (Circle_radius_set_gt c v Hgt)|]. split.
  - apply Circle_radius_stored. apply lookup_insert_eq.
  - intros name Hname. apply lookup_insert_ne. congruence.
Qed.

Lemma Circle_radius_set_get_witness :
  exists c' : object,
    Circle_radius_set (Int 10) {["_radius" := Num (Int 5)]} = (Return tt, c') /\
    Circle_radius c' = (Return (Num (Int 10)), c') /\
    (forall name : string, name <> "_radius" ->
       c' !! name = ({["_radius" := Num (Int 5)]} : object) !! name).
Proof.
  apply (Circle_radius_set_get {["_radius" := Num (Int 5)]} (Int 10)). reflexivity.
Defined.

(** X12: a rejected assignment after an accepted one leaves the accepted
    radius in place: [c.radius = v1; c.radius = v2] with [v1 > 0] and [v2]
    not [> 0] raises the [ValueError], and the getter still returns [v1]. *)
Theorem Circle_radius_rejected_keeps_previous (c : object) (v1 v2 : number) :
  number_gt v1 (Int 0) = true ->
  number_gt v2 (Int 0) = false ->
  exists c1 : object,
    (Circle_radius_set v1;; Circle_radius_set v2) c
      = (Raise (ValueError "Radius must be positive"), c1) /\
    Circle_radius c1 = (Return (Num v1), c1).
Proof.
  intros H1 H2. exists (<["_radius" := Num v1]> c). split.
  - rewrite (seq_Return _ _ _ _ _ (Circle_radius_set_gt c v1 H1)).
    apply Circle_radius_set_not_gt. exact H2.
  - apply Circle_radius_stored. apply lookup_insert_eq.
Qed.

Lemma Circle_radius_rejected_keeps_previous_witness :
  exists c1 : object,
    (Circle_radius_set (Int 10);; Circle_radius_set (Int (-1))) {["_radius" := Num (Int 5)]}
      = (Raise (ValueError "Radius must be positive"), c1) /\
    Circle_radius c1 = (Return (Num (Int 10)), c1).
Proof.
  apply (Circle_radius_rejected_keeps_previous {["_radius" := Num (Int 5)]}
           (Int 10) (Int (-1))); reflexivity.
Defined.

(** X13: the last accepted assignment wins and no trace of the earlier ones
    stays: two accepted assignments in a row leave the instance that the
    second one alone leaves, and an accepted assignment on a Circle just
    constructed leaves the instance that constructing with the new value
    gives. *)
Theorem Circle_radius_last_wins (c : object) (v0 : value) (v1 v2 : number) :
  number_gt v1 (Int 0) = true ->
  number_gt v2 (Int 0) = true ->
  (Circle_radius_set v1;; Circle_radius_set v2) c = Circle_radius_set v2 c /\
  (exists c0 : object,
     Circle v0 = Return c0 /\
     Circle (Num v2) = Return (Circle_radius_set v2 c0).2).
Proof.
  intros H1 H2. split.
  - rewrite (seq_Return _ _ _ _ _ (Circle_radius_set_gt c v1 H1)).
    rewrite !(Circle_radius_set_gt _ v2 H2). rewrite insert_insert_eq. reflexivity.
  - exists {["_radius" := v0]}. split; [apply Circle_singleton|].
    rewrite (Circle_radius_set_gt _ v2 H2), Circle_singleton. simpl.
    rewrite insert_singleton_eq. reflexivity.
Qed.

Lemma Circle_radius_last_wins_witness :
  (Circle_radius_set (Int 7);; Circle_radius_set (Int 10)) {["_radius" := Num (Int 5)]}
    = Circle_radius_set (Int 10) {["_radius" := Num (Int 5)]} /\
  (exists c0 : object,
     Circle (Num (Int 5)) = Return c0 /\
     Circle (Num (Int 10)) = Return (Circle_radius_set (Int 10) c0).2).
Proof.
  apply (Circle_radius_last_wins {["_radius" := Num (Int 5)]} (Num (Int 5))
           (Int 7) (Int 10)); reflexivity.
Defined.

(** X14: a run of assignments goes through exactly when every value in it is
    [> 0], and then the instance is the one the last assignment alone leaves
    (the instance itself for the empty run). *)
Theorem assign_all_returns_iff (vs : list number) (c c' : object) :
  assign_all vs c = (Return tt, c') <->
  Forall (fun v => number_gt v (Int 0) = true) vs /\
  c' = match last vs with
       | Some v => <["_radius" := Num v]> c
       | None => c
       end.
Proof.
  revert c. induction vs as [|v vs IH]; intros c.
  - simpl. split.
    + intros H. injection H as <-. split; [constructor|reflexivity].
    + intros [_ ->]. reflexivity.
  - rewrite assign_all_cons, last_cons.
    destruct (number_gt v (Int 0)) eqn:Hgt.
    + rewrite (Circle_radius_set_gt c v Hgt), IH. split.
      * intros [Hall ->]. split; [constructor; assumption|].
        destruct (last vs); [apply insert_insert_eq|reflexivity].
      * intros [Hall ->]. inversion Hall; subst. split; [assumption|].
        destruct (last vs); [symmetry; apply insert_insert_eq|reflexivity].
    + rewrite (Circle_radius_set_not_gt c v Hgt). split.
      * intros H. discriminate H.
      * intros [Hall _]. inversion Hall; subst. congruence.
Qed.

Lemma assign_all_returns_iff_witness :
  assign_all [Int 7; Float 0.5; Int 10] {["_radius" := Num (Int (-5))]}
    = (Return tt, <["_radius" := Num (Int 10)]> {["_radius" := Num (Int (-5))]}).
Proof.
  apply (proj2 (assign_all_returns_iff [Int 7; Float 0.5; Int 10]
                  {["_radius" := Num (Int (-5))]}
                  (<["_radius" := Num (Int 10)]> {["_radius" := Num (Int (-5))]}))).
  split; [|reflexivity].
  repeat constructor.
Defined.

(** X15: deleting after an accepted assignment undoes it: [c.radius = v;
    del c.radius] returns and leaves the instance without [_radius] and
    otherwise as it was; on an instance that had no radius that is the
    instance itself. *)
Theorem Circle_radius_set_del (c : object) (v : number) :
  number_gt v (Int 0) = true ->
  (Circle_radius_set v;; Circle_radius_del) c = (Return tt, delete "_radius" c) /\
  (c !! "_radius" = None ->
     (Circle_radius_set v;; Circle_radius_del) c = (Return tt, c)).
Proof.
  intros Hgt.
  assert (Hrun : (Circle_radius_set v;; Circle_radius_del) c
                   = (Return tt, delete "_radius" c)).
  { rewrite (seq_Return _ _ _ _ _ (Circle_radius_set_gt c v Hgt)).
    unfold Circle_radius_del, delattr. rewrite lookup_insert_eq, delete_insert_eq.
    reflexivity. }
  split; [exact Hrun|]. intros Hnone. rewrite Hrun, delete_id by exact Hnone.
  reflexivity.
Qed.

Lemma Circle_radius_set_del_witness :
  (Circle_radius_set (Int 10);; Circle_radius_del) ∅ = (Return tt, delete "_radius" ∅) /\
  ((∅ : object) !! "_radius" = None ->
     (Circle_radius_set (Int 10);; Circle_radius_del) ∅ = (Return tt, ∅)).
Proof. apply (Circle_radius_set_del ∅ (Int 10)). reflexivity. Defined.

(** X16: [del c.radius] twice in a row always ends in [AttributeError]: the
    second deletion (or already the first, on an instance without a radius)
    finds no [_radius], and the instance is left without it. *)
Theorem Circle_radius_del_twice (c : object) :
  (Circle_radius_del;; Circle_radius_del) c
    = (Raise (AttributeError "_radius"), delete "_radius" c).
Proof.
  unfold Circle_radius_del, delattr, mbind, M_bind.
  destruct (c !! "_radius") eqn:Hc.
  - rewrite lookup_delete_eq. reflexivity.
  - rewrite delete_id by exact Hc. reflexivity.
Qed.

(** ** Circle: the property [area] *)

(** X17: the constructor accepts a radius that is not a number, the getter
    returns it, and only reading [area] fails, with [TypeError], leaving the
    instance as it is. *)
Theorem Circle_area_not_a_number float_pow (v : value) :
  (forall n : number, v <> Num n) ->
  exists c : object,
    Circle v = Return c /\
    Circle_radius c = (Return v, c) /\
    Circle_area float_pow c = (Raise TypeError, c).
Proof.
  intros Hv. exists {["_radius" := v]}.
  assert (Hlook : ({["_radius" := v]} : object) !! "_radius" = Some v)
    by apply lookup_singleton_eq.
  split; [apply Circle_singleton|].
  split; [exact (Circle_radius_stored _ v Hlook)|].
  rewrite Circle_area_unfold, Hlook.
  destruct v as [n| |]; [destruct (Hv n eq_refl)| |]; reflexivity.
Qed.

Lemma Circle_area_not_a_number_witness :
  exists c : object,
    Circle (Str "wide") = Return c /\
    Circle_radius c = (Return (Str "wide"), c) /\
    Circle_area (fun x _ => Return (x * x)%float) c = (Raise TypeError, c).
Proof.
  apply (Circle_area_not_a_number (fun x _ => Return (x * x)%float) (Str "wide")).
  intros n H. discriminate H.
Defined.

(** X18: for an int radius the area does not see the sign: [Circle(z)] and
    [Circle(-z)], both accepted by the constructor, have the same [area]
    (the same float, or the same exception). *)
Theorem Circle_area_sign float_pow (z : Z) :
  exists c1 c2 : object,
    Circle (Num (Int z)) = Return c1 /\
    Circle (Num (Int (- z))) = Return c2 /\
    (Circle_area float_pow c1).1 = (Circle_area float_pow c2).1.
Proof.
  exists {["_radius" := Num (Int z)]}, {["_radius" := Num (Int (- z))]}.
  split; [apply Circle_singleton|]. split; [apply Circle_singleton|].
  rewrite !Circle_area_unfold, !lookup_singleton_eq. cbn [fst].
  change (as_number (Num (Int z))) with (Return (A:=number) (Int z)).
  change (as_number (Num (Int (- z)))) with (Return (A:=number) (Int (- z))).
  change (Return (Int z) ≫= ?k) with (k (Int z)).
  change (Return (Int (- z)) ≫= ?k) with (k (Int (- z))). cbv beta.
  rewrite !py_pow_Int_2, Z.mul_opp_opp. reflexivity.
Qed.

(** X19: assigning a positive int and then reading [area] gives 3.14 times
    the float of its square, on the instance the assignment left; the
    assignment and the read compose without any other effect. *)
Theorem Circle_radius_set_then_area float_pow (c : object) (z : Z) (f : float) :
  0 < z ->
  int_to_float (z * z) = Return f ->
  (Circle_radius_set (Int z);; Circle_area float_pow) c
    = (Return (Num (Float (lit_3_14 * f))), <["_radius" := Num (Int z)]> c).
Proof.
  intros Hz Hf.
  assert (Hgt : number_gt (Int z) (Int 0) = true) by (apply Z.ltb_lt; exact Hz).
  rewrite (seq_Return _ _ _ _ _ (Circle_radius_set_gt c (Int z) Hgt)).
  apply (Circle_area_Int float_pow _ z f); [apply lookup_insert_eq|exact Hf].
Qed.

Lemma Circle_radius_set_then_area_witness :
  (Circle_radius_set (Int 10);; Circle_area (fun x _ => Return (x * x)%float))
    {["_radius" := Num (Int 5)]}
    = (Return (Num (Float (lit_3_14 * 100))),
       <["_radius" := Num (Int 10)]> {["_radius" := Num (Int 5)]}).
Proof.
  apply (Circle_radius_set_then_area (fun x _ => Return (x * x)%float)
           {["_radius" := Num (Int 5)]} 10 100%float).
  - reflexivity.
  - vm_compute. reflexivity.
Defined.

(** ** MyClass.increment_count at the edges *)

(** X20: [MyClass.increment_count] never prints and never touches a class
    attribute other than [count], whatever the class holds and whether the
    call returns or raises. *)
Theorem MyClass_increment_count_frame (w : world) :
  stdout (MyClass_increment_count w).2 = stdout w /\
  (forall name : string,
     name <> "count" ->
     MyClass_dict (MyClass_increment_count w).2 !! name = MyClass_dict w !! name).
Proof.
  unfold MyClass_increment_count, on_MyClass, mbind, M_bind, getattr, lift, setattr.
  destruct (MyClass_dict w !! "count") as [v|]; [|split; reflexivity].
  destruct (value_add v (Num (Int 1))) as [v'|e]; [|split; reflexivity].
  split; [reflexivity|]. intros name Hname. simpl.
  apply lookup_insert_ne. congruence.
Qed.

(** X21: the counter is not checked to be an int.  When the class has no
    [count] the call raises [AttributeError]; when [count] is a string or
    [None] it raises [TypeError]; in both cases the world stays as it was.
    When [count] is a float the call adds [1.0] to it. *)
Theorem MyClass_increment_count_edges (w : world) :
  (MyClass_dict w !! "count" = None ->
     MyClass_increment_count w = (Raise (AttributeError "count"), w)) /\
  (forall s : string,
     MyClass_dict w !! "count" = Some (Str s) ->
     MyClass_increment_count w = (Raise TypeError, w)) /\
  (MyClass_dict w !! "count" = Some NoneV ->
     MyClass_increment_count w = (Raise TypeError, w)) /\
  (forall f : float,
     MyClass_dict w !! "count" = Some (Num (Float f)) ->
     MyClass_increment_count w =
       (Return tt,
        {| stdout := stdout w;
           MyClass_dict := <["count" := Num (Float (f + 1))]> (MyClass_dict w) |})).
Proof.
  unfold MyClass_increment_count, on_MyClass, mbind, M_bind, getattr, lift, setattr.
  destruct w as [out d]. cbn [MyClass_dict stdout].
  repeat split; intros; rewrite H; reflexivity.
Qed.

Lemma MyClass_increment_count_edges_witness :
  MyClass_increment_count {| stdout := []; MyClass_dict := ∅ |}
    = (Raise (AttributeError "count"), {| stdout := []; MyClass_dict := ∅ |}).
Proof.
  apply (proj1 (MyClass_increment_count_edges {| stdout := []; MyClass_dict := ∅ |})).
  reflexivity.
Defined.

(** ** log over the script's functions *)

(** X22: the wrapper itself never touches the class state: after a call of
    [log(func)] the attributes of [MyClass] are the ones [func] left, or,
    when an int among the arguments has more than 4300 digits and the
    wrapper raises before running [func], the ones they were. *)
Theorem log_class_state (func : pyfunc) (args : list value)
    (kwargs : list (string * value)) (w : world) :
  MyClass_dict (log func args kwargs w).2 =
    if forallb value_formattable args
       && forallb (fun kv => value_formattable kv.2) kwargs
    then MyClass_dict (func args kwargs (printed (calling_line args kwargs) w)).2
    else MyClass_dict w.
Proof.
  rewrite log_unfold, calling_line_formattable.
  destruct (forallb value_formattable args
            && forallb (fun kv => value_formattable kv.2) kwargs); [|reflexivity].
  destruct (func args kwargs (printed (calling_line args kwargs) w)) as [[v|e] w2];
    reflexivity.
Qed.

(** X23: the decorated [add] on two ints.  When both arguments and their
    sum have at most 4300 digits it prints three lines in this order, the
    calling line with the two arguments, the line of the sum and the
    completion line, and returns [None], not the sum that [add] itself
    returns.  When an argument has more digits it raises [ValueError]
    without printing; when only the sum has, it raises [ValueError] after
    the calling line, with no completion line. *)
Theorem log_add_ints (x y : Z) (w : world) :
  log add [Num (Int x); Num (Int y)] [] w =
    (if (Z.abs x <? 10 ^ 4300) && (Z.abs y <? 10 ^ 4300) then
       if Z.abs (x + y) <? 10 ^ 4300 then
         (Return NoneV,
          {| stdout := stdout w ++
                       [calling_line [Num (Int x); Num (Int y)] [];
                        [Lit "Sum = "; Fmt (Num (Int (x + y)))];
                        complete_line];
             MyClass_dict := MyClass_dict w |})
       else (Raise digits_error,
             printed (calling_line [Num (Int x); Num (Int y)] []) w)
     else (Raise digits_error, w)) /\
  (add [Num (Int x); Num (Int y)] [] w).1 =
    (if Z.abs (x + y) <? 10 ^ 4300 then Return (Num (Int (x + y)))
     else Raise digits_error).
Proof.
  split.
  - rewrite log_unfold, calling_line_formattable, add_ints.
    cbn [forallb value_formattable]. rewrite !andb_true_r.
    unfold int_formattable, int_max_str_digits.
    destruct ((Z.abs x <? 10 ^ 4300) && (Z.abs y <? 10 ^ 4300)); [|reflexivity].
    destruct (Z.abs (x + y) <? 10 ^ 4300); [|reflexivity].
    unfold printed. cbn [stdout MyClass_dict]. rewrite <- !app_assoc. reflexivity.
  - rewrite add_ints. unfold int_formattable, int_max_str_digits.
    destruct (Z.abs (x + y) <? 10 ^ 4300); reflexivity.
Qed.

(** X24: the decorated [add] called with a number of positional arguments
    other than two, none of them an int of more than 4300 digits, prints
    the calling line and then raises the [TypeError] of the call; neither a
    sum nor the completion line is printed.  With such an int among them it
    raises [ValueError] and prints nothing. *)
Theorem log_add_wrong_arity (args : list value) (w : world) :
  length args <> 2%nat ->
  log add args [] w =
    if forallb value_formattable args
    then (Raise TypeError, printed (calling_line args []) w)
    else (Raise digits_error, w).
Proof.
  intros H. rewrite log_unfold, calling_line_formattable.
  cbn [forallb]. rewrite andb_true_r.
  destruct (forallb value_formattable args); [|reflexivity].
  destruct args as [|a [|b [|c args]]]; try reflexivity.
  exfalso. apply H. reflexivity.
Qed.

Lemma log_add_wrong_arity_witness :
  log add [Num (Int 1)] [] initial_world
    = if forallb value_formattable [Num (Int 1)]
      then (Raise TypeError, printed (calling_line [Num (Int 1)] []) initial_world)
      else (Raise digits_error, initial_world).
Proof. apply (log_add_wrong_arity [Num (Int 1)] initial_world). discriminate. Defined.
